(** * Frame cryptor control plane (webrtc-sys/src/frame_cryptor.cpp)

    A shallow embedding of the C++ binding layer that attaches a frame
    transformer to an RTP sender or receiver and exposes the enable flag,
    the key index and the observer slot.

    The objects of one FrameCryptor live in a [World]: the FrameCryptor's
    own fields, the transformer it created, the endpoint (sender or
    receiver) the transformer is attached to, the heap of observer bridges
    and a trace of the effects that are visible outside.  Member functions
    are computations in a small state monad whose outcomes also cover the
    ways a C++ call can fail to return. *)

From Stdlib Require Import ZArith String List Bool Lia.
From stdpp Require Import base gmap.
Import ListNotations.

Local Open Scope Z_scope.

(** ** Data *)

(** [livekit::Algorithm] is a shared enum of the Rust bridge: on the C++
    side an [enum class] over a 32-bit integer, so a value outside the two
    declared enumerators can reach the [switch]. *)
Definition Algorithm := Z.

(** Modelled from the spec: the enumerators of [Algorithm] are declared in
    the generated bridge header frame_cryptor.rs.h, which is not part of the
    sources; the spec lists them as {AesGcm, AesCbc}, numbered in that
    order. *)
Definition AesGcm : Algorithm := 0.
Definition AesCbc : Algorithm := 1.

(** [webrtc::FrameCryptorTransformer::Algorithm] *)
Inductive TransformerAlgorithm := kAesGcm | kAesCbc.

(** [webrtc::FrameCryptorTransformer::MediaType] *)
Inductive MediaType := kAudioFrame | kVideoFrame.

Inductive Direction := Sender | Receiver.

Definition addr := nat.

(** The boxed application observer ([rust::Box<RtcFrameCryptorObserverWrapper>]),
    known here only by its identity. *)
Definition ObserverId := nat.

(** [webrtc::FrameCryptionState] and [livekit::FrameCryptionState]: both
    enums over the same integers; the cast between them keeps the value. *)
Definition FrameCryptionState := Z.
Definition static_cast_FrameCryptionState (s : FrameCryptionState) : FrameCryptionState := s.

Record KeyProviderOptions := {
  shared_key : bool;
  ratchet_salt : list Byte.byte;
  uncrypted_magic_bytes : list Byte.byte;
  ratchet_window_size : Z
}.

(** [KeyProvider]: owns [impl_], the native key provider built from the
    copied options. *)
Record KeyProvider := { impl_ : KeyProviderOptions }.

Record MediaStreamTrack := { kind : string }.

(** A sender or a receiver of the media pipeline, as far as this layer
    touches it: the attached track (a possibly null pointer) and the slot
    that holds the frame transformer. *)
Record RtpEndpoint := {
  track : option MediaStreamTrack;
  frame_transformer : option addr
}.

(** The state of the [webrtc::FrameCryptorTransformer] behind
    [e2ee_transformer_]. *)
Record FrameCryptorTransformer := {
  tr_participant_id : string;
  tr_media_type : MediaType;
  tr_algorithm : TransformerAlgorithm;
  tr_key_provider : KeyProvider;
  tr_enabled : bool;
  tr_key_index : Z;
  tr_observer : option addr
}.

(** [NativeFrameCryptorObserver]: the bridge.  [observer_] is the boxed
    application observer; the back pointer [fc_] always designates the one
    FrameCryptor of the world. *)
Record NativeFrameCryptorObserver := { br_observer : ObserverId }.

Inductive Event :=
| EvAttach (d : Direction) (t : addr)
| EvSetEnabled (b : bool)
| EvLock
| EvUnlock
| EvUnregister
| EvSetObserver (o : option addr)
| EvDestroyBridge (p : addr)
| EvCallback (o : ObserverId) (pid : string) (st : FrameCryptionState).

(** Modelled from the spec: the class declaration (livekit/frame_cryptor.h)
    is not part of the sources.  The fields are the ones the member
    functions use: [participant_id_], [key_provider_], [sender_] or
    [receiver_] (here [direction] and [endpoint]), [e2ee_transformer_]
    (the object at [transformer_at]), [mutex_] ([true] while held) and the
    owning pointer [observer_]. *)
Record World := {
  participant_id_ : string;
  key_provider_ : KeyProvider;
  direction : Direction;
  endpoint : RtpEndpoint;
  transformer_at : addr;
  e2ee_transformer_ : FrameCryptorTransformer;
  mutex_ : bool;
  observer_ : option addr;
  heap : gmap addr NativeFrameCryptorObserver;
  next_addr : addr;
  trace : list Event;
  destroyed : bool
}.

Definition set_transformer (t : FrameCryptorTransformer) (w : World) : World :=
  {| participant_id_ := participant_id_ w; key_provider_ := key_provider_ w;
     direction := direction w; endpoint := endpoint w;
     transformer_at := transformer_at w; e2ee_transformer_ := t;
     mutex_ := mutex_ w; observer_ := observer_ w; heap := heap w;
     next_addr := next_addr w; trace := trace w; destroyed := destroyed w |}.

Definition set_mutex (b : bool) (w : World) : World :=
  {| participant_id_ := participant_id_ w; key_provider_ := key_provider_ w;
     direction := direction w; endpoint := endpoint w;
     transformer_at := transformer_at w; e2ee_transformer_ := e2ee_transformer_ w;
     mutex_ := b; observer_ := observer_ w; heap := heap w;
     next_addr := next_addr w; trace := trace w; destroyed := destroyed w |}.

Definition set_observer_ (o : option addr) (w : World) : World :=
  {| participant_id_ := participant_id_ w; key_provider_ := key_provider_ w;
     direction := direction w; endpoint := endpoint w;
     transformer_at := transformer_at w; e2ee_transformer_ := e2ee_transformer_ w;
     mutex_ := mutex_ w; observer_ := o; heap := heap w;
     next_addr := next_addr w; trace := trace w; destroyed := destroyed w |}.

Definition set_heap (h : gmap addr NativeFrameCryptorObserver) (n : addr) (w : World) : World :=
  {| participant_id_ := participant_id_ w; key_provider_ := key_provider_ w;
     direction := direction w; endpoint := endpoint w;
     transformer_at := transformer_at w; e2ee_transformer_ := e2ee_transformer_ w;
     mutex_ := mutex_ w; observer_ := observer_ w; heap := h;
     next_addr := n; trace := trace w; destroyed := destroyed w |}.

Definition log (e : Event) (w : World) : World :=
  {| participant_id_ := participant_id_ w; key_provider_ := key_provider_ w;
     direction := direction w; endpoint := endpoint w;
     transformer_at := transformer_at w; e2ee_transformer_ := e2ee_transformer_ w;
     mutex_ := mutex_ w; observer_ := observer_ w; heap := heap w;
     next_addr := next_addr w; trace := trace w ++ [e]; destroyed := destroyed w |}.

Definition set_destroyed (w : World) : World :=
  {| participant_id_ := participant_id_ w; key_provider_ := key_provider_ w;
     direction := direction w; endpoint := endpoint w;
     transformer_at := transformer_at w; e2ee_transformer_ := e2ee_transformer_ w;
     mutex_ := mutex_ w; observer_ := observer_ w; heap := heap w;
     next_addr := next_addr w; trace := trace w; destroyed := true |}.

(** ** Outcomes of a call

    A member function returns ([Done]), blocks for ever on [mutex_]
    ([Deadlock], with the world at the moment it blocks), calls through a
    pointer to a freed bridge ([UseAfterFree]) or exhausts the recursion
    budget of the model ([OutOfFuel]). *)
Inductive Outcome (A : Type) : Type :=
| Done (a : A) (w : World)
| Deadlock (w : World)
| UseAfterFree (w : World)
| OutOfFuel.
Arguments Done {A} a w.
Arguments Deadlock {A} w.
Arguments UseAfterFree {A} w.
Arguments OutOfFuel {A}.

Definition M (A : Type) : Type := World -> Outcome A.

Definition ret {A} (a : A) : M A := fun w => Done a w.

Definition bind {A B} (m : M A) (k : A -> M B) : M B :=
  fun w =>
    match m w with
    | Done a w' => k a w'
    | Deadlock w' => Deadlock w'
    | UseAfterFree w' => UseAfterFree w'
    | OutOfFuel => OutOfFuel
    end.

Declare Scope cpp_scope.
Delimit Scope cpp_scope with cpp.
Notation "x <- m ;; k" := (bind m (fun x => k))
  (at level 100, m at next level, k at level 200, right associativity) : cpp_scope.
Notation "m ;; k" := (bind m (fun _ => k))
  (at level 100, k at level 200, right associativity) : cpp_scope.
Local Open Scope cpp_scope.

Definition gets {A} (f : World -> A) : M A := fun w => Done (f w) w.
Definition modify (f : World -> World) : M unit := fun w => Done tt (f w).
Definition emit (e : Event) : M unit := modify (log e).

(** ** The algorithm mapping *)

(** [AlgorithmToFrameCryptorAlgorithm]: a [switch] with two cases and a
    [default]. *)
Definition AlgorithmToFrameCryptorAlgorithm (algorithm : Algorithm) : TransformerAlgorithm :=
  if algorithm =? AesGcm then kAesGcm
  else if algorithm =? AesCbc then kAesCbc
  else kAesGcm.

(** ** Key provider *)

(** [std::copy(first, last, std::back_inserter(v))] into an empty vector. *)
Definition copy_back_inserter (src : list Byte.byte) : list Byte.byte :=
  fold_left (fun v b => v ++ [b]) src [].

(** [KeyProvider::KeyProvider] *)
Definition KeyProvider_new (options : KeyProviderOptions) : KeyProvider :=
  let rtc_options :=
    {| shared_key := shared_key options;
       ratchet_salt := copy_back_inserter (ratchet_salt options);
       uncrypted_magic_bytes := copy_back_inserter (uncrypted_magic_bytes options);
       ratchet_window_size := ratchet_window_size options |} in
  {| impl_ := rtc_options |}.

Definition new_key_provider (options : KeyProviderOptions) : KeyProvider :=
  KeyProvider_new options.

(** ** The transformer, as this layer uses it

    The transformer is a class of the WebRTC library.  Its setters store
    their argument, its getters read it back, and a state change is
    reported to the registered observer, if there is one. *)

Definition wrap32 (z : Z) : Z := (z + 2 ^ 31) mod 2 ^ 32 - 2 ^ 31.

(** What a new transformer holds before any setter is called: the library's
    choice, so a parameter here. *)
Record TransformerDefaults := {
  default_enabled : bool;
  default_key_index : Z
}.

Definition new_FrameCryptorTransformer (participant_id : string) (mediaType : MediaType)
    (algorithm : TransformerAlgorithm) (key_provider : KeyProvider)
    (d : TransformerDefaults) : FrameCryptorTransformer :=
  {| tr_participant_id := participant_id; tr_media_type := mediaType;
     tr_algorithm := algorithm; tr_key_provider := key_provider;
     tr_enabled := default_enabled d; tr_key_index := default_key_index d;
     tr_observer := None |}.

Definition with_enabled (b : bool) (t : FrameCryptorTransformer) : FrameCryptorTransformer :=
  {| tr_participant_id := tr_participant_id t; tr_media_type := tr_media_type t;
     tr_algorithm := tr_algorithm t; tr_key_provider := tr_key_provider t;
     tr_enabled := b; tr_key_index := tr_key_index t; tr_observer := tr_observer t |}.

Definition with_key_index (k : Z) (t : FrameCryptorTransformer) : FrameCryptorTransformer :=
  {| tr_participant_id := tr_participant_id t; tr_media_type := tr_media_type t;
     tr_algorithm := tr_algorithm t; tr_key_provider := tr_key_provider t;
     tr_enabled := tr_enabled t; tr_key_index := k; tr_observer := tr_observer t |}.

Definition with_observer (o : option addr) (t : FrameCryptorTransformer) : FrameCryptorTransformer :=
  {| tr_participant_id := tr_participant_id t; tr_media_type := tr_media_type t;
     tr_algorithm := tr_algorithm t; tr_key_provider := tr_key_provider t;
     tr_enabled := tr_enabled t; tr_key_index := tr_key_index t; tr_observer := o |}.

(** [e2ee_transformer_->SetEnabled(b)] *)
Definition SetEnabled (b : bool) (w : World) : World :=
  log (EvSetEnabled b) (set_transformer (with_enabled b (e2ee_transformer_ w)) w).

(** [e2ee_transformer_->SetKeyIndex(index)]: the parameter is an [int]. *)
Definition SetKeyIndex (index : Z) (w : World) : World :=
  set_transformer (with_key_index (wrap32 index) (e2ee_transformer_ w)) w.

(** [e2ee_transformer_->SetFrameCryptorTransformerObserver(o)] *)
Definition SetFrameCryptorTransformerObserver (o : option addr) (w : World) : World :=
  log (EvSetObserver o) (set_transformer (with_observer o (e2ee_transformer_ w)) w).

(** [sender->SetEncoderToPacketizerFrameTransformer(e2ee_transformer_)] and
    [receiver->SetDepacketizerToDecoderFrameTransformer(e2ee_transformer_)]:
    the slot of the endpoint now holds the transformer. *)
Definition attach (w : World) : World :=
  log (EvAttach (direction w) (transformer_at w))
    {| participant_id_ := participant_id_ w; key_provider_ := key_provider_ w;
       direction := direction w;
       endpoint := {| track := track (endpoint w);
                      frame_transformer := Some (transformer_at w) |};
       transformer_at := transformer_at w; e2ee_transformer_ := e2ee_transformer_ w;
       mutex_ := mutex_ w; observer_ := observer_ w; heap := heap w;
       next_addr := next_addr w; trace := trace w; destroyed := destroyed w |}.

(** ** Construction *)

(** A constructor returns the world of the new FrameCryptor, or never gets
    that far because it calls [kind()] through a null track pointer. *)
Inductive Constructed :=
| Built (w : World)
| NullDereference.

(** The member initialisers and the freshly allocated transformer.  [t0] is
    the address the allocator hands out for the transformer. *)
Definition initial_world (d : Direction) (participant_id : string)
    (algorithm : TransformerAlgorithm) (key_provider : KeyProvider)
    (ep : RtpEndpoint) (mediaType : MediaType)
    (t0 : addr) (dflt : TransformerDefaults) : World :=
  {| participant_id_ := participant_id; key_provider_ := key_provider;
     direction := d; endpoint := ep; transformer_at := t0;
     e2ee_transformer_ :=
       new_FrameCryptorTransformer participant_id mediaType algorithm key_provider dflt;
     mutex_ := false; observer_ := None; heap := ∅;
     next_addr := S t0; trace := []; destroyed := false |}.

(** [FrameCryptor::FrameCryptor], sender variant *)
Definition FrameCryptor_sender (participant_id : string)
    (algorithm : TransformerAlgorithm) (key_provider : KeyProvider)
    (sender : RtpEndpoint) (t0 : addr) (dflt : TransformerDefaults) : Constructed :=
  match track sender with
  | None => NullDereference
  | Some trk =>
      let mediaType :=
        if String.eqb (kind trk) "audio"%string then kAudioFrame else kVideoFrame in
      Built (SetEnabled false
               (attach (initial_world Sender participant_id algorithm key_provider
                          sender mediaType t0 dflt)))
  end.

(** [FrameCryptor::FrameCryptor], receiver variant *)
Definition FrameCryptor_receiver (participant_id : string)
    (algorithm : TransformerAlgorithm) (key_provider : KeyProvider)
    (receiver : RtpEndpoint) (t0 : addr) (dflt : TransformerDefaults) : Constructed :=
  match track receiver with
  | None => NullDereference
  | Some trk =>
      let mediaType :=
        if String.eqb (kind trk) "audio"%string then kAudioFrame else kVideoFrame in
      Built (SetEnabled false
               (attach (initial_world Receiver participant_id algorithm key_provider
                          receiver mediaType t0 dflt)))
  end.

Definition new_frame_cryptor_for_rtp_sender (participant_id : string)
    (algorithm : Algorithm) (key_provider : KeyProvider) (sender : RtpEndpoint)
    (t0 : addr) (dflt : TransformerDefaults) : Constructed :=
  FrameCryptor_sender participant_id (AlgorithmToFrameCryptorAlgorithm algorithm)
    key_provider sender t0 dflt.

Definition new_frame_cryptor_for_rtp_receiver (participant_id : string)
    (algorithm : Algorithm) (key_provider : KeyProvider) (receiver : RtpEndpoint)
    (t0 : addr) (dflt : TransformerDefaults) : Constructed :=
  FrameCryptor_receiver participant_id (AlgorithmToFrameCryptorAlgorithm algorithm)
    key_provider receiver t0 dflt.

(** ** The mutex

    [webrtc::Mutex] is not reentrant: a thread that locks it while holding
    it never proceeds.  [MutexLock] locks in its constructor and unlocks
    when the enclosing scope is left. *)
Definition lock : M unit :=
  fun w => if mutex_ w then Deadlock w else Done tt (log EvLock (set_mutex true w)).

Definition unlock : M unit := modify (fun w => log EvUnlock (set_mutex false w)).

Definition MutexLock {A} (body : M A) : M A :=
  lock ;; r <- body ;; unlock ;; ret r.

(** ** Observer registration *)

(** [delete p] for a bridge: the destructor body runs, then the storage is
    released.  The body is a parameter because it calls back into
    [unregister_observer]. *)
Definition delete_bridge (dtor_body : M unit) (p : addr) : M unit :=
  emit (EvDestroyBridge p) ;;
  dtor_body ;;
  modify (fun w => set_heap (delete p (heap w)) (next_addr w) w).

(** [observer_.reset(p)], which is what both assignments to [observer_]
    come to: the new pointer is stored first, then the old bridge, if any,
    is deleted. *)
Definition unique_ptr_reset (dtor_body : M unit) (p : option addr) : M unit :=
  old <- gets observer_ ;;
  modify (set_observer_ p) ;;
  match old with
  | Some q => delete_bridge dtor_body q
  | None => ret tt
  end.

(** [FrameCryptor::unregister_observer].  The deleted bridge's destructor
    calls this function again; [fuel] bounds that recursion. *)
Fixpoint unregister_observer (fuel : nat) : M unit :=
  match fuel with
  | O => fun _ => OutOfFuel
  | S n =>
      emit EvUnregister ;;
      MutexLock
        (unique_ptr_reset (unregister_observer n) None ;;
         modify (SetFrameCryptorTransformerObserver None))
  end.

(** [NativeFrameCryptorObserver::~NativeFrameCryptorObserver] *)
Definition NativeFrameCryptorObserver_dtor (fuel : nat) : M unit :=
  unregister_observer fuel.

(** [std::make_unique<NativeFrameCryptorObserver>(std::move(observer), this)] *)
Definition make_unique (observer : ObserverId) : M addr :=
  fun w =>
    let p := next_addr w in
    Done p (set_heap (<[p := {| br_observer := observer |}]> (heap w)) (S p) w).

(** [FrameCryptor::register_observer] *)
Definition register_observer (fuel : nat) (observer : ObserverId) : M unit :=
  MutexLock
    (p <- make_unique observer ;;
     unique_ptr_reset (NativeFrameCryptorObserver_dtor fuel) (Some p) ;;
     o <- gets observer_ ;;
     modify (SetFrameCryptorTransformerObserver o)).

(** [NativeFrameCryptorObserver::OnFrameCryptionStateChanged] *)
Definition OnFrameCryptionStateChanged (b : NativeFrameCryptorObserver)
    (participant_id : string) (state : FrameCryptionState) : M unit :=
  emit (EvCallback (br_observer b) participant_id (static_cast_FrameCryptionState state)).

(** The transformer reports a state change: it calls the registered
    observer pointer, if it is not null. *)
Definition state_changed (state : FrameCryptionState) : M unit :=
  fun w =>
    match tr_observer (e2ee_transformer_ w) with
    | None => Done tt w
    | Some p =>
        match heap w !! p with
        | Some b =>
            OnFrameCryptionStateChanged b (tr_participant_id (e2ee_transformer_ w)) state w
        | None => UseAfterFree w
        end
    end.

(** ** Enable flag and key index *)

(** [FrameCryptor::set_enabled] *)
Definition set_enabled (enabled : bool) : M unit :=
  MutexLock (modify (SetEnabled enabled)).

(** [FrameCryptor::enabled] *)
Definition enabled : M bool :=
  MutexLock (gets (fun w => tr_enabled (e2ee_transformer_ w))).

(** [FrameCryptor::set_key_index] *)
Definition set_key_index (index : Z) : M unit :=
  MutexLock (modify (SetKeyIndex index)).

(** [FrameCryptor::key_index] *)
Definition key_index : M Z :=
  MutexLock (gets (fun w => tr_key_index (e2ee_transformer_ w))).

(** ** Destruction *)

(** What [~unique_ptr] does with the stored pointer while the deleter runs
    is the standard library's choice: libc++ clears it first (the
    destructor is [reset()]), libstdc++ and the MSVC library call the
    deleter with the pointer still stored. *)
Inductive UniquePtrDtor := ClearThenDelete | DeleteThenClear.

Definition unique_ptr_dtor (pol : UniquePtrDtor) (dtor_body : M unit) : M unit :=
  old <- gets observer_ ;;
  match old with
  | None => ret tt
  | Some p =>
      match pol with
      | ClearThenDelete => modify (set_observer_ None) ;; delete_bridge dtor_body p
      | DeleteThenClear => delete_bridge dtor_body p ;; modify (set_observer_ None)
      end
  end.

(** [FrameCryptor::~FrameCryptor]: the body is empty; then the members are
    destroyed, [observer_] while [mutex_] and [e2ee_transformer_] are still
    alive.  Destroying [observer_] deletes the bridge; the references
    [e2ee_transformer_], [key_provider_] and [sender_] or [receiver_] are
    dropped, which leaves the endpoint and the transformer it still refers
    to as they are. *)
Definition FrameCryptor_dtor (pol : UniquePtrDtor) (fuel : nat) : M unit :=
  unique_ptr_dtor pol (NativeFrameCryptorObserver_dtor fuel) ;;
  modify set_destroyed.

(** ** Reading a trace *)

Definition is_callback (e : Event) : bool :=
  match e with EvCallback _ _ _ => true | _ => false end.

Definition is_unregister (e : Event) : bool :=
  match e with EvUnregister => true | _ => false end.

Definition callbacks (tr : list Event) : list Event := List.filter is_callback tr.
Definition unregisters (tr : list Event) : nat := length (List.filter is_unregister tr).

(** The events a call added to the trace. *)
Definition since (w : World) (w' : World) : list Event :=
  skipn (length (trace w)) (trace w').

(** ** Calls from outside

    The calls the application can make on a live FrameCryptor, and the
    state change the transformer reports from the media thread. *)
Inductive Call :=
| CallSetEnabled (b : bool)
| CallEnabled
| CallSetKeyIndex (k : Z)
| CallKeyIndex
| CallRegisterObserver (o : ObserverId)
| CallUnregisterObserver
| CallStateChanged (st : FrameCryptionState).

Definition run_call (fuel : nat) (c : Call) : M unit :=
  match c with
  | CallSetEnabled b => set_enabled b
  | CallEnabled => _ <- enabled ;; ret tt
  | CallSetKeyIndex k => set_key_index k
  | CallKeyIndex => _ <- key_index ;; ret tt
  | CallRegisterObserver o => register_observer fuel o
  | CallUnregisterObserver => unregister_observer fuel
  | CallStateChanged st => state_changed st
  end.

Fixpoint run_calls (fuel : nat) (cs : list Call) : M unit :=
  match cs with
  | [] => ret tt
  | c :: cs' => run_call fuel c ;; run_calls fuel cs'
  end.

(** The world an outcome stops in. *)
Definition world_of {A} (o : Outcome A) : option World :=
  match o with
  | Done _ w | Deadlock w | UseAfterFree w => Some w
  | OutOfFuel => None
  end.

(** A sequence of [set_enabled] calls, as a caller issues them. *)
Fixpoint set_enabled_all (bs : list bool) : M unit :=
  match bs with
  | [] => ret tt
  | b :: bs' => set_enabled b ;; set_enabled_all bs'
  end.

(** The values an [int32_t] holds. *)
Definition int32 (k : Z) : Prop := - 2 ^ 31 <= k < 2 ^ 31.

(** A world between two calls: nobody holds the mutex. *)
Definition quiescent (w : World) : Prop := mutex_ w = false.

(** The constructor for a direction. *)
Definition constructor_of (d : Direction) :=
  match d with
  | Sender => FrameCryptor_sender
  | Receiver => FrameCryptor_receiver
  end.

(** ** What no call touches

    The endpoint (its track and its transformer slot) and the arguments the
    transformer was built with are the same after any call, however the
    call ends. *)
Definition stable (w w' : World) : Prop :=
  endpoint w' = endpoint w /\
  transformer_at w' = transformer_at w /\
  tr_participant_id (e2ee_transformer_ w') = tr_participant_id (e2ee_transformer_ w) /\
  tr_media_type (e2ee_transformer_ w') = tr_media_type (e2ee_transformer_ w) /\
  tr_algorithm (e2ee_transformer_ w') = tr_algorithm (e2ee_transformer_ w).

Definition keeps {A} (m : M A) : Prop :=
  forall w, match world_of (m w) with Some w' => stable w w' | None => True end.

(** ** Sample objects, used to run the model on concrete inputs *)

Definition sample_key_provider : KeyProvider :=
  new_key_provider
    {| shared_key := true; ratchet_salt := []; uncrypted_magic_bytes := [];
       ratchet_window_size := 4 |}.

Definition sample_defaults : TransformerDefaults :=
  {| default_enabled := true; default_key_index := 0 |}.

Definition audio_endpoint : RtpEndpoint :=
  {| track := Some {| kind := "audio"%string |}; frame_transformer := None |}.

Definition trackless_endpoint : RtpEndpoint :=
  {| track := None; frame_transformer := None |}.

(** The world of a FrameCryptor built for a sender with an audio track. *)
Definition sample_world : World :=
  SetEnabled false
    (attach (initial_world Sender "participant-1"%string kAesGcm sample_key_provider
               audio_endpoint kAudioFrame 0%nat sample_defaults)).

(** The sample world after [register_observer] with the observer 7. *)
Definition sample_registered : World :=
  match register_observer 2 7%nat sample_world with
  | Done _ w => w
  | _ => sample_world
  end.

(** Between calls the transformer's observer pointer and the owning slot
    agree. *)
Definition consistent (w : World) : Prop :=
  tr_observer (e2ee_transformer_ w) = observer_ w.

(** ** Call sequences, read without running them *)

(** A world between two calls, as construction and returning calls leave
    it: the mutex is free, the transformer's observer pointer is the
    owning slot's, and a registered bridge is alive. *)
Definition well_formed (w : World) : Prop :=
  quiescent w /\ consistent w /\
  forall p, observer_ w = Some p -> is_Some (heap w !! p).

Definition registered (w : World) : bool :=
  match observer_ w with Some _ => true | None => false end.

(** The application observer behind the registered bridge. *)
Definition current_observer (w : World) : option ObserverId :=
  match observer_ w with
  | Some p =>
      match heap w !! p with
      | Some b => Some (br_observer b)
      | None => None
      end
  | None => None
  end.

Definition is_observer_call (c : Call) : bool :=
  match c with
  | CallRegisterObserver _ | CallUnregisterObserver => true
  | _ => false
  end.

(** The flag after a sequence of calls: the argument of the latest
    [set_enabled], or the flag before when there is none. *)
Fixpoint enabled_after (b0 : bool) (cs : list Call) : bool :=
  match cs with
  | [] => b0
  | CallSetEnabled b :: cs' => enabled_after b cs'
  | _ :: cs' => enabled_after b0 cs'
  end.

(** The key index after a sequence of calls: the argument of the latest
    [set_key_index], as an [int]. *)
Fixpoint key_index_after (k0 : Z) (cs : list Call) : Z :=
  match cs with
  | [] => k0
  | CallSetKeyIndex k :: cs' => key_index_after (wrap32 k) cs'
  | _ :: cs' => key_index_after k0 cs'
  end.

(** The callbacks a sequence of calls is expected to deliver: one per
    state change, to the observer registered at that moment. *)
Fixpoint expected_callbacks (pid : string) (obs : option ObserverId)
    (cs : list Call) : list Event :=
  match cs with
  | [] => []
  | CallStateChanged st :: cs' =>
      match obs with
      | Some o => EvCallback o pid st :: expected_callbacks pid obs cs'
      | None => expected_callbacks pid obs cs'
      end
  | CallRegisterObserver o :: cs' => expected_callbacks pid (Some o) cs'
  | CallUnregisterObserver :: cs' => expected_callbacks pid None cs'
  | _ :: cs' => expected_callbacks pid obs cs'
  end.

(** Whether a sequence of calls avoids [register_observer] and
    [unregister_observer] while an observer is registered. *)
Fixpoint avoids_reentry (reg : bool) (cs : list Call) : bool :=
  match cs with
  | [] => true
  | CallRegisterObserver _ :: cs' => if reg then false else avoids_reentry true cs'
  | CallUnregisterObserver :: cs' => if reg then false else avoids_reentry false cs'
  | _ :: cs' => avoids_reentry reg cs'
  end.

(** What one returning call does to a well-formed world. *)
Definition follows (c : Call) (w w' : World) : Prop :=
  well_formed w' /\
  tr_participant_id (e2ee_transformer_ w') = tr_participant_id (e2ee_transformer_ w) /\
  tr_enabled (e2ee_transformer_ w') =
    enabled_after (tr_enabled (e2ee_transformer_ w)) [c] /\
  tr_key_index (e2ee_transformer_ w') =
    key_index_after (tr_key_index (e2ee_transformer_ w)) [c] /\
  registered w' =
    match c with CallRegisterObserver _ => true | _ => registered w end /\
  current_observer w' =
    match c with CallRegisterObserver o => Some o | _ => current_observer w end /\
  (forall p, observer_ w = Some p ->
     observer_ w' = Some p /\ heap w' !! p = heap w !! p) /\
  avoids_reentry (registered w) [c] = true /\
  exists evs,
    trace w' = trace w ++ evs /\
    callbacks evs =
      expected_callbacks (tr_participant_id (e2ee_transformer_ w)) (current_observer w) [c].

(** The factory for a direction. *)
Definition factory_of (d : Direction) :=
  match d with
  | Sender => new_frame_cryptor_for_rtp_sender
  | Receiver => new_frame_cryptor_for_rtp_receiver
  end.

(** A sample sequence of calls that mixes all kinds. *)
Definition call_mix : list Call :=
  [CallSetEnabled true; CallStateChanged 3; CallRegisterObserver 7%nat;
   CallSetKeyIndex (-5); CallStateChanged 4; CallSetEnabled false;
   CallKeyIndex; CallStateChanged 5; CallEnabled].

(** The sample world after [call_mix]. *)
Definition sample_after_mix : World :=
  match run_calls 2 call_mix sample_world with
  | Done _ w => w
  | _ => sample_world
  end.

(** Calls that leave the observer slot alone. *)
Definition quiet_calls : list Call :=
  [CallSetEnabled true; CallStateChanged 3; CallSetKeyIndex 9; CallEnabled].

Definition sample_registered_after_quiet : World :=
  match run_calls 2 quiet_calls sample_registered with
  | Done _ w => w
  | _ => sample_registered
  end.

(** * Properties *)

(** ** Basic facts about the model *)

Lemma wrap32_id (k : Z) : int32 k -> wrap32 k = k.
Proof.
  unfold int32, wrap32. intros Hk.
  rewrite Z.mod_small by lia. lia.
Qed.

Lemma sample_world_built :
  new_frame_cryptor_for_rtp_sender "participant-1"%string AesGcm sample_key_provider
    audio_endpoint 0%nat sample_defaults = Built sample_world.
Proof. reflexivity. Qed.

Lemma set_enabled_quiescent (b : bool) (w : World) :
  quiescent w ->
  set_enabled b w =
    Done tt (log EvUnlock (set_mutex false (SetEnabled b (log EvLock (set_mutex true w))))).
Proof.
  unfold quiescent. intros Hq.
  unfold set_enabled, MutexLock, bind, lock. rewrite Hq. reflexivity.
Qed.

Lemma enabled_quiescent (w : World) :
  quiescent w ->
  enabled w =
    Done (tr_enabled (e2ee_transformer_ w))
         (log EvUnlock (set_mutex false (log EvLock (set_mutex true w)))).
Proof.
  unfold quiescent. intros Hq.
  unfold enabled, MutexLock, bind, lock. rewrite Hq. reflexivity.
Qed.

Lemma set_key_index_quiescent (k : Z) (w : World) :
  quiescent w ->
  set_key_index k w =
    Done tt (log EvUnlock (set_mutex false (SetKeyIndex k (log EvLock (set_mutex true w))))).
Proof.
  unfold quiescent. intros Hq.
  unfold set_key_index, MutexLock, bind, lock. rewrite Hq. reflexivity.
Qed.

Lemma key_index_quiescent (w : World) :
  quiescent w ->
  key_index w =
    Done (tr_key_index (e2ee_transformer_ w))
         (log EvUnlock (set_mutex false (log EvLock (set_mutex true w)))).
Proof.
  unfold quiescent. intros Hq.
  unfold key_index, MutexLock, bind, lock. rewrite Hq. reflexivity.
Qed.

Lemma constructed_quiescent (d : Direction) pid alg kp ep mt t0 dflt :
  quiescent (SetEnabled false (attach (initial_world d pid alg kp ep mt t0 dflt))).
Proof. reflexivity. Qed.

(** ** Algorithm selection *)

(** C9: the mapping sends AesGcm to the AES-GCM cipher, AesCbc to the
    AES-CBC cipher and every other value to AES-GCM; being a total
    function, it has a result for every input. *)
Theorem algorithm_mapping_total :
  AlgorithmToFrameCryptorAlgorithm AesGcm = kAesGcm /\
  AlgorithmToFrameCryptorAlgorithm AesCbc = kAesCbc /\
  forall a : Algorithm,
    AlgorithmToFrameCryptorAlgorithm a = (if decide (a = AesCbc) then kAesCbc else kAesGcm).
Proof.
  split; [reflexivity | split; [reflexivity |]].
  intros a. unfold AlgorithmToFrameCryptorAlgorithm.
  destruct (Z.eqb_spec a AesGcm) as [-> | _]; [reflexivity |].
  destruct (Z.eqb_spec a AesCbc) as [-> | Hne]; [reflexivity |].
  destruct (decide (a = AesCbc)); [contradiction | reflexivity].
Qed.

(** ** Construction *)

(** C6: a FrameCryptor built for a sender or for a receiver that has a
    track first attaches the transformer to the endpoint, then disables
    it, so [enabled()] called next returns false, whatever the transformer
    is enabled to by default. *)
Theorem fresh_frame_cryptor_is_disabled (d : Direction) (participant_id : string)
    (algorithm : TransformerAlgorithm) (key_provider : KeyProvider)
    (ep : RtpEndpoint) (t0 : addr) (dflt : TransformerDefaults) (trk : MediaStreamTrack) :
  track ep = Some trk ->
  exists w w',
    constructor_of d participant_id algorithm key_provider ep t0 dflt = Built w /\
    trace w = [EvAttach d t0; EvSetEnabled false] /\
    frame_transformer (endpoint w) = Some t0 /\
    enabled w = Done false w'.
Proof.
  intros Htrk.
  destruct d; cbn [constructor_of];
    unfold FrameCryptor_sender, FrameCryptor_receiver; rewrite Htrk;
    eexists; eexists; (split; [reflexivity |]);
    (split; [reflexivity |]); (split; [reflexivity |]);
    rewrite enabled_quiescent by apply constructed_quiescent; reflexivity.
Qed.

Lemma fresh_frame_cryptor_is_disabled_witness :
  exists w w',
    constructor_of Sender "participant-1"%string kAesGcm sample_key_provider
      audio_endpoint 0%nat sample_defaults = Built w /\
    trace w = [EvAttach Sender 0%nat; EvSetEnabled false] /\
    frame_transformer (endpoint w) = Some 0%nat /\
    enabled w = Done false w'.
Proof.
  apply (fresh_frame_cryptor_is_disabled Sender "participant-1"%string kAesGcm
           sample_key_provider audio_endpoint 0%nat sample_defaults
           {| kind := "audio"%string |}).
  reflexivity.
Defined.

(** ** What no call touches *)

Lemma stable_refl (w : World) : stable w w.
Proof. repeat split. Qed.

Lemma stable_trans (w1 w2 w3 : World) : stable w1 w2 -> stable w2 w3 -> stable w1 w3.
Proof.
  unfold stable. intros (?&?&?&?&?) (?&?&?&?&?). repeat split; congruence.
Qed.

Lemma keeps_ret {A} (a : A) : keeps (ret a).
Proof. intros w. apply stable_refl. Qed.

Lemma keeps_gets {A} (f : World -> A) : keeps (gets f).
Proof. intros w. apply stable_refl. Qed.

Lemma keeps_modify (f : World -> World) :
  (forall w, stable w (f w)) -> keeps (modify f).
Proof. intros Hf w. apply Hf. Qed.

Lemma keeps_bind {A B} (m : M A) (k : A -> M B) :
  keeps m -> (forall a, keeps (k a)) -> keeps (bind m k).
Proof.
  intros Hm Hk w. unfold bind. specialize (Hm w).
  destruct (m w) as [a w1 | w1 | w1 |]; cbn in *; try assumption.
  specialize (Hk a w1).
  destruct (world_of (k a w1)); [| exact I].
  eapply stable_trans; eassumption.
Qed.

Lemma keeps_lock : keeps lock.
Proof. intros w. unfold lock. destruct (mutex_ w); cbn; repeat split. Qed.

Lemma keeps_MutexLock {A} (body : M A) : keeps body -> keeps (MutexLock body).
Proof.
  intros Hb. unfold MutexLock, unlock.
  apply keeps_bind; [apply keeps_lock | intros _].
  apply keeps_bind; [assumption | intros r].
  apply keeps_bind; [| intros _; apply keeps_ret].
  apply keeps_modify. repeat split.
Qed.

Lemma keeps_delete_bridge (body : M unit) (p : addr) :
  keeps body -> keeps (delete_bridge body p).
Proof.
  intros Hb. unfold delete_bridge, emit.
  apply keeps_bind; [apply keeps_modify; repeat split | intros _].
  apply keeps_bind; [assumption | intros _].
  apply keeps_modify. repeat split.
Qed.

Lemma keeps_unique_ptr_reset (body : M unit) (p : option addr) :
  keeps body -> keeps (unique_ptr_reset body p).
Proof.
  intros Hb. unfold unique_ptr_reset.
  apply keeps_bind; [apply keeps_gets | intros old].
  apply keeps_bind; [apply keeps_modify; repeat split | intros _].
  destruct old; [apply keeps_delete_bridge; assumption | apply keeps_ret].
Qed.

Lemma keeps_unregister_observer (fuel : nat) : keeps (unregister_observer fuel).
Proof.
  induction fuel as [| n IH]; [intros w; exact I |].
  cbn [unregister_observer]. unfold emit.
  apply keeps_bind; [apply keeps_modify; repeat split | intros _].
  apply keeps_MutexLock.
  apply keeps_bind; [apply keeps_unique_ptr_reset; exact IH | intros _].
  apply keeps_modify. repeat split.
Qed.

Lemma keeps_register_observer (fuel : nat) (o : ObserverId) : keeps (register_observer fuel o).
Proof.
  unfold register_observer. apply keeps_MutexLock.
  apply keeps_bind; [intros w; repeat split | intros p].
  apply keeps_bind;
    [apply keeps_unique_ptr_reset; apply keeps_unregister_observer | intros _].
  apply keeps_bind; [apply keeps_gets | intros q].
  apply keeps_modify. repeat split.
Qed.

Lemma keeps_state_changed (st : FrameCryptionState) : keeps (state_changed st).
Proof.
  intros w. unfold state_changed.
  destruct (tr_observer (e2ee_transformer_ w)) as [p |]; [| apply stable_refl].
  destruct (heap w !! p); cbn; repeat split.
Qed.

Lemma keeps_run_call (fuel : nat) (c : Call) : keeps (run_call fuel c).
Proof.
  destruct c; cbn [run_call].
  - apply keeps_MutexLock, keeps_modify. repeat split.
  - apply keeps_bind; [apply keeps_MutexLock, keeps_gets | intros _; apply keeps_ret].
  - apply keeps_MutexLock, keeps_modify. repeat split.
  - apply keeps_bind; [apply keeps_MutexLock, keeps_gets | intros _; apply keeps_ret].
  - apply keeps_register_observer.
  - apply keeps_unregister_observer.
  - apply keeps_state_changed.
Qed.

Lemma keeps_run_calls (fuel : nat) (cs : list Call) : keeps (run_calls fuel cs).
Proof.
  induction cs as [| c cs IH]; cbn [run_calls]; [apply keeps_ret |].
  apply keeps_bind; [apply keeps_run_call | intros _; exact IH].
Qed.

Lemma keeps_FrameCryptor_dtor (pol : UniquePtrDtor) (fuel : nat) :
  keeps (FrameCryptor_dtor pol fuel).
Proof.
  unfold FrameCryptor_dtor, unique_ptr_dtor, NativeFrameCryptorObserver_dtor.
  apply keeps_bind; [| intros _; apply keeps_modify; repeat split].
  apply keeps_bind; [apply keeps_gets | intros old].
  destruct old as [p |]; [| apply keeps_ret].
  destruct pol.
  - apply keeps_bind; [apply keeps_modify; repeat split | intros _].
    apply keeps_delete_bridge, keeps_unregister_observer.
  - apply keeps_bind;
      [apply keeps_delete_bridge, keeps_unregister_observer | intros _].
    apply keeps_modify. repeat split.
Qed.

(** C10: the media type is decided by comparing the track's kind with
    "audio": that kind gives the audio type, any other string the video
    type.  It is decided in the constructor only: whatever calls follow and
    however they end, the transformer keeps the media type it was built
    with. *)
Theorem media_type_from_track_kind (d : Direction) (participant_id : string)
    (algorithm : TransformerAlgorithm) (key_provider : KeyProvider)
    (tk : string) (slot : option addr) (t0 : addr) (dflt : TransformerDefaults) :
  exists w,
    constructor_of d participant_id algorithm key_provider
      {| track := Some {| kind := tk |}; frame_transformer := slot |} t0 dflt = Built w /\
    tr_media_type (e2ee_transformer_ w) =
      (if decide (tk = "audio"%string) then kAudioFrame else kVideoFrame) /\
    forall (fuel : nat) (cs : list Call) (w' : World),
      world_of (run_calls fuel cs w) = Some w' ->
      tr_media_type (e2ee_transformer_ w') = tr_media_type (e2ee_transformer_ w).
Proof.
  assert (Hcls : (if String.eqb tk "audio" then kAudioFrame else kVideoFrame) =
                 (if decide (tk = "audio"%string) then kAudioFrame else kVideoFrame)).
  { destruct (String.eqb_spec tk "audio"), (decide (tk = "audio"%string));
      congruence. }
  destruct d; cbn [constructor_of];
    unfold FrameCryptor_sender, FrameCryptor_receiver; cbn [track kind];
    eexists; (split; [reflexivity |]); (split; [exact Hcls |]);
    intros fuel cs w' Hrun;
    match type of Hrun with
    | world_of (run_calls _ _ ?w0) = _ =>
        pose proof (keeps_run_calls fuel cs w0) as Hk
    end;
    rewrite Hrun in Hk; apply Hk.
Qed.

(** C2 (as amended): a sender without a track does not get a FrameCryptor
    classified as video: the constructor calls [kind()] through the null
    track pointer and does not complete.  With a track attached the
    constructor completes, and every kind other than "audio" is classified
    as video. *)
Theorem sender_construction_needs_track (participant_id : string)
    (algorithm : TransformerAlgorithm) (key_provider : KeyProvider)
    (sender : RtpEndpoint) (t0 : addr) (dflt : TransformerDefaults) :
  (track sender = None /\
   FrameCryptor_sender participant_id algorithm key_provider sender t0 dflt
     = NullDereference) \/
  (exists trk w,
     track sender = Some trk /\
     FrameCryptor_sender participant_id algorithm key_provider sender t0 dflt = Built w /\
     tr_media_type (e2ee_transformer_ w) =
       (if decide (kind trk = "audio"%string) then kAudioFrame else kVideoFrame)).
Proof.
  unfold FrameCryptor_sender.
  destruct (track sender) as [trk |]; [right | left; split; reflexivity].
  exists trk. eexists. split; [reflexivity |]. split; [reflexivity |].
  cbn. destruct (String.eqb_spec (kind trk) "audio"), (decide (kind trk = "audio"%string));
    congruence.
Qed.

(** C2, the claim as stated fails: built for a sender that has no track,
    through the factory the application calls, the FrameCryptor is not
    constructed. *)
Lemma trackless_sender_is_not_constructed :
  new_frame_cryptor_for_rtp_sender "participant-1"%string AesGcm sample_key_provider
    trackless_endpoint 0%nat sample_defaults = NullDereference.
Proof. reflexivity. Qed.

(** ** Enable flag and key index *)

Lemma last_default_irrelevant (b : bool) (bs : list bool) (d d' : bool) :
  List.last (b :: bs) d = List.last (b :: bs) d'.
Proof.
  revert b. induction bs as [| c bs IH]; intros b; [reflexivity |].
  change (List.last (c :: bs) d = List.last (c :: bs) d'). apply IH.
Qed.

Lemma set_enabled_all_last (bs : list bool) :
  forall w, quiescent w ->
  exists w',
    set_enabled_all bs w = Done tt w' /\ quiescent w' /\
    tr_enabled (e2ee_transformer_ w') = List.last bs (tr_enabled (e2ee_transformer_ w)).
Proof.
  induction bs as [| b bs IH]; intros w Hq.
  - exists w. repeat split. exact Hq.
  - cbn [set_enabled_all]. unfold bind at 1.
    rewrite set_enabled_quiescent by exact Hq.
    match goal with
    | |- context [set_enabled_all bs ?w1] =>
        destruct (IH w1) as (w' & Hrun & Hq' & Hlast); [reflexivity |]
    end.
    exists w'. split; [exact Hrun |]. split; [exact Hq' |].
    rewrite Hlast. destruct bs as [| c bs']; [reflexivity |].
    change (List.last (b :: c :: bs') (tr_enabled (e2ee_transformer_ w)))
      with (List.last (c :: bs') (tr_enabled (e2ee_transformer_ w))).
    apply last_default_irrelevant.
Qed.

Lemma last_snoc_bool (bs : list bool) (b d : bool) : List.last (bs ++ [b]) d = b.
Proof. apply List.last_last. Qed.

(** C7: after any sequence of [set_enabled] calls, [enabled()] returns the
    argument of the last call of the sequence. *)
Theorem enabled_returns_last_set (w : World) (bs : list bool) (b : bool) :
  quiescent w ->
  exists w' w'',
    set_enabled_all (bs ++ [b]) w = Done tt w' /\
    enabled w' = Done b w''.
Proof.
  intros Hq.
  destruct (set_enabled_all_last (bs ++ [b]) w Hq) as (w' & Hrun & Hq' & Hlast).
  exists w'. eexists. split; [exact Hrun |].
  rewrite enabled_quiescent by exact Hq'.
  rewrite Hlast, last_snoc_bool. reflexivity.
Qed.

Lemma enabled_returns_last_set_witness :
  exists w' w'',
    set_enabled_all ([true; false; false] ++ [true]) sample_world = Done tt w' /\
    enabled w' = Done true w''.
Proof.
  apply (enabled_returns_last_set sample_world [true; false; false] true).
  reflexivity.
Defined.

(** C8: for every 32-bit integer [k], negative ones included,
    [set_key_index(k)] returns, and [key_index()] called next returns
    [k]. *)
Theorem key_index_returns_set_value (w : World) (k : Z) :
  quiescent w ->
  int32 k ->
  exists w' w'',
    set_key_index k w = Done tt w' /\
    key_index w' = Done k w''.
Proof.
  intros Hq Hk.
  rewrite set_key_index_quiescent by exact Hq.
  eexists. eexists. split; [reflexivity |].
  rewrite key_index_quiescent by reflexivity.
  cbn. rewrite wrap32_id by exact Hk. reflexivity.
Qed.

Lemma key_index_returns_set_value_witness :
  exists w' w'',
    set_key_index (-5) sample_world = Done tt w' /\
    key_index w' = Done (-5) w''.
Proof.
  apply (key_index_returns_set_value sample_world (-5)).
  - reflexivity.
  - unfold int32. lia.
Defined.

(** ** Observer registration and the mutex *)

(** Entered while the mutex is held, [unregister_observer] blocks at its
    [MutexLock]. *)
Lemma unregister_observer_held (n : nat) (w : World) :
  mutex_ w = true ->
  unregister_observer (S n) w = Deadlock (log EvUnregister w).
Proof.
  intros Hheld. cbn [unregister_observer].
  unfold bind, emit, modify, MutexLock, bind, lock. cbn. rewrite Hheld. reflexivity.
Qed.

(** With no observer registered it clears the transformer's observer and
    returns. *)
Lemma unregister_observer_idle (n : nat) (w : World) :
  quiescent w -> observer_ w = None ->
  unregister_observer (S n) w =
    Done tt
      (log EvUnlock (set_mutex false
        (SetFrameCryptorTransformerObserver None
          (set_observer_ None (log EvLock (set_mutex true (log EvUnregister w))))))).
Proof.
  unfold quiescent. intros Hq Hobs. cbn [unregister_observer].
  unfold bind, emit, modify, MutexLock, bind, lock, unique_ptr_reset, bind, gets, modify.
  cbn. rewrite Hq. cbn. rewrite Hobs. reflexivity.
Qed.

(** With an observer registered, clearing [observer_] deletes the bridge,
    whose destructor calls [unregister_observer] while the outer call
    holds the mutex. *)
Lemma unregister_observer_registered (n : nat) (w : World) (p : addr) :
  quiescent w -> observer_ w = Some p ->
  unregister_observer (S (S n)) w =
    Deadlock
      (log EvUnregister (log (EvDestroyBridge p)
        (set_observer_ None (log EvLock (set_mutex true (log EvUnregister w)))))).
Proof.
  unfold quiescent. intros Hq Hobs.
  change (unregister_observer (S (S n)))
    with (emit EvUnregister ;;
          MutexLock
            (unique_ptr_reset (unregister_observer (S n)) None ;;
             modify (SetFrameCryptorTransformerObserver None))).
  unfold bind, emit, modify, MutexLock, bind, lock, unique_ptr_reset, bind, gets, modify,
    delete_bridge, bind, emit, modify.
  cbn [mutex_ log set_mutex]. rewrite Hq.
  cbn [observer_ log set_mutex set_observer_]. rewrite Hobs.
  rewrite unregister_observer_held by reflexivity. reflexivity.
Qed.

(** Two units of fuel are always enough: the nested call never gets past
    its lock. *)
Lemma unregister_observer_fuel (n : nat) (w : World) :
  unregister_observer (S (S n)) w = unregister_observer 2 w /\
  unregister_observer 2 w <> OutOfFuel.
Proof.
  destruct (mutex_ w) eqn:Hm.
  - rewrite !unregister_observer_held by exact Hm. split; [reflexivity | discriminate].
  - destruct (observer_ w) as [p |] eqn:Ho.
    + rewrite !(unregister_observer_registered _ w p) by assumption.
      split; [reflexivity | discriminate].
    + rewrite !unregister_observer_idle by assumption.
      split; [reflexivity | discriminate].
Qed.

(** The first registration returns with the new bridge in both slots. *)
Lemma register_observer_first (n : nat) (o : ObserverId) (w : World) :
  quiescent w -> observer_ w = None ->
  register_observer n o w =
    Done tt
      (log EvUnlock (set_mutex false
        (SetFrameCryptorTransformerObserver (Some (next_addr w))
          (set_observer_ (Some (next_addr w))
            (set_heap (<[next_addr w := {| br_observer := o |}]> (heap w)) (S (next_addr w))
              (log EvLock (set_mutex true w))))))).
Proof.
  unfold quiescent. intros Hq Hobs.
  unfold register_observer, MutexLock, bind, lock, make_unique, unique_ptr_reset, bind,
    gets, modify.
  rewrite Hq. cbn. rewrite Hobs. reflexivity.
Qed.

(** A registration over an existing one deletes the old bridge under the
    lock, and the old bridge's destructor blocks on that lock. *)
Lemma register_observer_again (n : nat) (o : ObserverId) (w : World) (p : addr) :
  quiescent w -> observer_ w = Some p ->
  register_observer (S n) o w =
    Deadlock
      (log EvUnregister (log (EvDestroyBridge p)
        (set_observer_ (Some (next_addr w))
          (set_heap (<[next_addr w := {| br_observer := o |}]> (heap w)) (S (next_addr w))
            (log EvLock (set_mutex true w)))))).
Proof.
  unfold quiescent. intros Hq Hobs.
  unfold register_observer, MutexLock, bind, lock, make_unique, unique_ptr_reset, bind,
    gets, modify, delete_bridge, bind, emit, modify, NativeFrameCryptorObserver_dtor.
  rewrite Hq. cbn [observer_ log set_mutex set_observer_ set_heap next_addr]. rewrite Hobs.
  rewrite unregister_observer_held by reflexivity. reflexivity.
Qed.

Lemma since_app (w w' : World) (evs : list Event) :
  trace w' = trace w ++ evs -> since w w' = evs.
Proof. unfold since. intros ->. apply drop_app_length. Qed.

(** Reads off the events a chain of [log]s added. *)
Ltac added_events :=
  apply since_app; cbn; rewrite <- ?app_assoc, ?app_nil_r; reflexivity.

(** A registered observer receives the state change, with the
    transformer's participant id. *)
Lemma registered_observer_is_called (n : nat) (o : ObserverId) (w : World)
    (st : FrameCryptionState) :
  quiescent w -> observer_ w = None ->
  exists w1 w2,
    register_observer n o w = Done tt w1 /\
    state_changed st w1 = Done tt w2 /\
    callbacks (since w w2) =
      [EvCallback o (tr_participant_id (e2ee_transformer_ w)) st].
Proof.
  intros Hq Hobs. rewrite register_observer_first by assumption.
  eexists. eexists. split; [reflexivity |].
  unfold state_changed. cbn [tr_observer e2ee_transformer_ log set_mutex
    SetFrameCryptorTransformerObserver set_transformer with_observer heap
    set_observer_ set_heap].
  rewrite lookup_insert_eq.
  split; [reflexivity |].
  erewrite since_app; [| cbn; rewrite <- !app_assoc; reflexivity]. reflexivity.
Qed.

(** Destruction when [~unique_ptr] clears the pointer before it deletes. *)
Lemma dtor_clear_then_delete_registered (n : nat) (w : World) (p : addr) :
  quiescent w -> observer_ w = Some p ->
  FrameCryptor_dtor ClearThenDelete (S n) w =
    Done tt
      (set_destroyed
        (set_heap (delete p (heap w)) (next_addr w)
          (log EvUnlock (set_mutex false
            (SetFrameCryptorTransformerObserver None
              (set_observer_ None (log EvLock (set_mutex true (log EvUnregister
                (log (EvDestroyBridge p) (set_observer_ None w))))))))))).
Proof.
  unfold quiescent. intros Hq Hobs.
  unfold FrameCryptor_dtor, unique_ptr_dtor, NativeFrameCryptorObserver_dtor,
    delete_bridge.
  unfold bind at 1 2. unfold gets. rewrite Hobs.
  unfold bind at 1 2 3. unfold modify at 1, emit at 1, modify at 1.
  rewrite unregister_observer_idle; [reflexivity | exact Hq | reflexivity].
Qed.

Lemma dtor_idle (pol : UniquePtrDtor) (n : nat) (w : World) :
  observer_ w = None ->
  FrameCryptor_dtor pol n w = Done tt (set_destroyed w).
Proof.
  intros Hobs. unfold FrameCryptor_dtor, unique_ptr_dtor, bind, gets.
  rewrite Hobs. reflexivity.
Qed.

(** Destruction when [~unique_ptr] deletes with the pointer still stored:
    the bridge's destructor clears [observer_] itself, which deletes the
    bridge a second time, under the lock. *)
Lemma dtor_delete_then_clear_registered (n : nat) (w : World) (p : addr) :
  quiescent w -> observer_ w = Some p ->
  FrameCryptor_dtor DeleteThenClear (S (S n)) w =
    Deadlock
      (log EvUnregister (log (EvDestroyBridge p)
        (set_observer_ None (log EvLock (set_mutex true (log EvUnregister
          (log (EvDestroyBridge p) w))))))).
Proof.
  unfold quiescent. intros Hq Hobs.
  unfold FrameCryptor_dtor, unique_ptr_dtor, NativeFrameCryptorObserver_dtor,
    delete_bridge.
  unfold bind at 1 2. unfold gets. rewrite Hobs.
  unfold bind at 1 2 3. unfold emit at 1, modify at 1.
  rewrite (unregister_observer_registered n _ p); [reflexivity | exact Hq | exact Hobs].
Qed.

Lemma sample_registered_done :
  register_observer 2 7%nat sample_world = Done tt sample_registered.
Proof. reflexivity. Qed.

Lemma sample_registered_slot : observer_ sample_registered = Some 1%nat.
Proof. reflexivity. Qed.

(** ** Destruction *)

(** C1 (as amended): where the destructor of the observer slot clears the
    stored pointer before it deletes the bridge, destroying a FrameCryptor
    returns; a registered bridge is deleted (its destructor runs once and
    its storage is released) and its destructor calls
    [unregister_observer] exactly once (nothing is deleted or
    unregistered when none is registered); afterwards the transformer has
    no observer, so a state change delivers no callback.  The endpoint's
    transformer slot is not touched: the transformer stays attached. *)
Theorem destruction_unregisters_once (w : World) (n : nat) :
  quiescent w ->
  consistent w ->
  exists w',
    FrameCryptor_dtor ClearThenDelete (S n) w = Done tt w' /\
    unregisters (since w w') = match observer_ w with Some _ => 1%nat | None => 0%nat end /\
    observer_ w' = None /\
    tr_observer (e2ee_transformer_ w') = None /\
    (forall st, state_changed st w' = Done tt w') /\
    frame_transformer (endpoint w') = frame_transformer (endpoint w) /\
    destroyed w' = true /\
    mutex_ w' = false /\
    (forall p, observer_ w = Some p ->
       since w w' =
         [EvDestroyBridge p; EvUnregister; EvLock; EvSetObserver None; EvUnlock] /\
       heap w' = delete p (heap w) /\
       heap w' !! p = None) /\
    (observer_ w = None -> since w w' = [] /\ heap w' = heap w).
Proof.
  unfold consistent, quiescent. intros Hq Hc.
  destruct (observer_ w) as [p |] eqn:Hobs.
  - rewrite (dtor_clear_then_delete_registered n w p Hq Hobs).
    eexists. split; [reflexivity |].
    split.
    { erewrite since_app; [| cbn; rewrite <- !app_assoc; reflexivity]. reflexivity. }
    split; [reflexivity |]. split; [reflexivity |].
    split; [intros st; reflexivity |]. split; [reflexivity |].
    split; [reflexivity |]. split; [reflexivity |].
    split; [| intros Hnone; discriminate Hnone].
    intros q Hq'. injection Hq' as <-.
    split; [added_events |].
    split; [reflexivity |].
    cbn. apply lookup_delete_eq.
  - rewrite dtor_idle by exact Hobs.
    eexists. split; [reflexivity |].
    split.
    { erewrite since_app; [| cbn; rewrite app_nil_r; reflexivity]. reflexivity. }
    split; [exact Hobs |]. split; [exact Hc |].
    split; [intros st; unfold state_changed; cbn; rewrite Hc; reflexivity |].
    split; [reflexivity |]. split; [reflexivity |]. split; [exact Hq |].
    split; [intros q Hq'; discriminate Hq' |].
    intros _. split; [| reflexivity].
    apply since_app. cbn. rewrite app_nil_r. reflexivity.
Qed.

Lemma destruction_unregisters_once_witness :
  exists w',
    FrameCryptor_dtor ClearThenDelete 1 sample_registered = Done tt w' /\
    unregisters (since sample_registered w') = 1%nat /\
    observer_ w' = None /\
    tr_observer (e2ee_transformer_ w') = None /\
    (forall st, state_changed st w' = Done tt w') /\
    frame_transformer (endpoint w') = Some 0%nat /\
    destroyed w' = true /\
    mutex_ w' = false /\
    since sample_registered w' =
      [EvDestroyBridge 1%nat; EvUnregister; EvLock; EvSetObserver None; EvUnlock] /\
    heap sample_registered !! 1%nat = Some {| br_observer := 7%nat |} /\
    heap w' = delete 1%nat (heap sample_registered) /\
    heap w' !! 1%nat = None.
Proof.
  destruct (destruction_unregisters_once sample_registered 0 eq_refl eq_refl)
    as (w' & Hrun & Hun & Hslot & Htr & Hst & Hep & Hd & Hm & Hreg & _).
  destruct (Hreg 1%nat eq_refl) as (Hev & Hheap & Hfree).
  exists w'.
  split; [exact Hrun |]. split; [exact Hun |]. split; [exact Hslot |].
  split; [exact Htr |]. split; [exact Hst |]. split; [exact Hep |].
  split; [exact Hd |]. split; [exact Hm |]. split; [exact Hev |].
  split; [vm_compute; reflexivity |]. split; [exact Hheap | exact Hfree].
Defined.

(** C1, the claim as stated fails: after the FrameCryptor with a registered
    observer is destroyed, the sender still holds the transformer; and
    where [~unique_ptr] deletes with the pointer still stored, the
    destructor does not even return. *)
Lemma destruction_leaves_transformer_attached :
  exists w' wd,
    FrameCryptor_dtor ClearThenDelete 2 sample_registered = Done tt w' /\
    destroyed w' = true /\
    frame_transformer (endpoint w') = Some (transformer_at w') /\
    FrameCryptor_dtor DeleteThenClear 2 sample_registered = Deadlock wd /\
    frame_transformer (endpoint wd) = Some (transformer_at wd).
Proof.
  rewrite (dtor_clear_then_delete_registered 1 sample_registered 1%nat)
    by reflexivity.
  rewrite (dtor_delete_then_clear_registered 0 sample_registered 1%nat)
    by reflexivity.
  eexists. eexists. repeat split.
Qed.

(** ** Registering and unregistering with an observer in place *)

(** C3, the code at [register_observer(7)] then [register_observer(8)]:
    the second call does not return.  It blocks with the mutex held, the
    transformer still pointing at the first bridge, and a state change is
    then delivered to observer 7. *)
Theorem second_registration_blocks :
  exists wd wev,
    (register_observer 2 7%nat ;; register_observer 2 8%nat) sample_world = Deadlock wd /\
    mutex_ wd = true /\
    observer_ wd = Some 2%nat /\
    tr_observer (e2ee_transformer_ wd) = Some 1%nat /\
    state_changed 3 wd = Done tt wev /\
    callbacks (since wd wev) = [EvCallback 7%nat "participant-1"%string 3].
Proof.
  unfold bind. rewrite sample_registered_done.
  rewrite (register_observer_again 1 8%nat sample_registered 1%nat) by reflexivity.
  eexists. eexists.
  split; [reflexivity |]. split; [reflexivity |]. split; [reflexivity |].
  split; [reflexivity |]. split; [vm_compute; reflexivity |].
  vm_compute. reflexivity.
Qed.

(** C4, the code with an observer registered: [register_observer] and
    [unregister_observer] each take the mutex once, delete the bridge, and
    the bridge's destructor enters [unregister_observer] again, which
    blocks on the mutex the call already holds. *)
Theorem nested_unregister_blocks_on_held_mutex (w : World) (p : addr)
    (o : ObserverId) (n : nat) :
  quiescent w ->
  observer_ w = Some p ->
  exists wd wd',
    register_observer (S n) o w = Deadlock wd /\
    mutex_ wd = true /\
    since w wd = [EvLock; EvDestroyBridge p; EvUnregister] /\
    unregister_observer (S (S n)) w = Deadlock wd' /\
    mutex_ wd' = true /\
    since w wd' = [EvUnregister; EvLock; EvDestroyBridge p; EvUnregister].
Proof.
  intros Hq Hobs.
  rewrite (register_observer_again n o w p Hq Hobs).
  rewrite (unregister_observer_registered n w p Hq Hobs).
  eexists. eexists.
  split; [reflexivity |]. split; [reflexivity |].
  split; [added_events |].
  split; [reflexivity |]. split; [reflexivity |].
  added_events.
Qed.

Lemma nested_unregister_blocks_on_held_mutex_witness :
  exists wd wd',
    register_observer 1 8%nat sample_registered = Deadlock wd /\
    mutex_ wd = true /\
    since sample_registered wd = [EvLock; EvDestroyBridge 1%nat; EvUnregister] /\
    unregister_observer 2 sample_registered = Deadlock wd' /\
    mutex_ wd' = true /\
    since sample_registered wd' =
      [EvUnregister; EvLock; EvDestroyBridge 1%nat; EvUnregister].
Proof.
  apply (nested_unregister_blocks_on_held_mutex sample_registered 1%nat 8%nat 0);
    reflexivity.
Defined.

(** X3: with no observer registered, [unregister_observer] returns and
    leaves the mutex free, both pointers null and the heap as it was, and
    delivers no callback; so it can be called any number of times. *)
Lemma unregister_observer_idle_noop (n : nat) (w : World) :
  quiescent w -> observer_ w = None ->
  exists w',
    unregister_observer (S n) w = Done tt w' /\
    quiescent w' /\ observer_ w' = None /\
    tr_observer (e2ee_transformer_ w') = None /\
    heap w' = heap w /\
    callbacks (since w w') = [].
Proof.
  intros Hq Hobs. rewrite unregister_observer_idle by assumption.
  eexists. split; [reflexivity |]. repeat split.
  erewrite since_app; [| cbn; rewrite <- !app_assoc; reflexivity]. reflexivity.
Qed.

Lemma unregister_observer_idle_noop_witness :
  exists w',
    unregister_observer 1 sample_world = Done tt w' /\
    quiescent w' /\ observer_ w' = None /\
    tr_observer (e2ee_transformer_ w') = None /\
    heap w' = heap sample_world /\
    callbacks (since sample_world w') = [].
Proof.
  apply (unregister_observer_idle_noop 0 sample_world); reflexivity.
Defined.

(** C5, the code at [register_observer(7)] then [unregister_observer()]:
    the second call does not return.  It blocks inside the bridge's
    destructor with the transformer still pointing at the bridge, and a
    state change is then still delivered to observer 7. *)
Theorem unregister_after_register_blocks :
  exists wd wev,
    (register_observer 2 7%nat ;; unregister_observer 2) sample_world = Deadlock wd /\
    mutex_ wd = true /\
    observer_ wd = None /\
    tr_observer (e2ee_transformer_ wd) = Some 1%nat /\
    state_changed 3 wd = Done tt wev /\
    callbacks (since wd wev) = [EvCallback 7%nat "participant-1"%string 3].
Proof.
  unfold bind. rewrite sample_registered_done.
  rewrite (unregister_observer_registered 0 sample_registered 1%nat) by reflexivity.
  eexists. eexists.
  split; [reflexivity |]. split; [reflexivity |]. split; [reflexivity |].
  split; [reflexivity |]. split; [vm_compute; reflexivity |].
  vm_compute. reflexivity.
Qed.

(** * Further properties of the code *)

(** ** Key provider *)

Lemma copy_back_inserter_acc (src acc : list Byte.byte) :
  fold_left (fun v b => v ++ [b]) src acc = acc ++ src.
Proof.
  revert acc. induction src as [| b src IH]; intros acc; cbn.
  - symmetry. apply app_nil_r.
  - rewrite IH, <- app_assoc. reflexivity.
Qed.

(** X1: the native key provider is built from options equal to the ones
    passed in: the flag and the window size as they are, the salt and the
    magic bytes byte for byte, in order. *)
Theorem key_provider_keeps_options (options : KeyProviderOptions) :
  impl_ (new_key_provider options) = options.
Proof.
  destruct options as [sk salt magic win].
  unfold new_key_provider, KeyProvider_new, copy_back_inserter. cbn.
  rewrite !copy_back_inserter_acc. reflexivity.
Qed.

(** ** Factories *)

Lemma constructed_well_formed (d : Direction) pid alg kp ep mt t0 dflt :
  well_formed (SetEnabled false (attach (initial_world d pid alg kp ep mt t0 dflt))).
Proof.
  split; [reflexivity |]. split; [reflexivity |].
  intros p Hp. discriminate Hp.
Qed.

(** X2: a factory either finds no track and does not construct, or builds
    a FrameCryptor whose transformer carries the participant id, the key
    provider and the mapped algorithm (AES-CBC for AesCbc, AES-GCM for
    every other value), is attached in the factory's direction, has no
    observer, and keeps the key index the transformer starts with. *)
Theorem factory_builds_from_arguments (d : Direction) (participant_id : string)
    (algorithm : Algorithm) (key_provider : KeyProvider) (ep : RtpEndpoint)
    (t0 : addr) (dflt : TransformerDefaults) :
  (track ep = None /\
   factory_of d participant_id algorithm key_provider ep t0 dflt = NullDereference) \/
  (exists trk w w',
     track ep = Some trk /\
     factory_of d participant_id algorithm key_provider ep t0 dflt = Built w /\
     direction w = d /\
     trace w = [EvAttach d t0; EvSetEnabled false] /\
     participant_id_ w = participant_id /\
     key_provider_ w = key_provider /\
     tr_participant_id (e2ee_transformer_ w) = participant_id /\
     tr_key_provider (e2ee_transformer_ w) = key_provider /\
     tr_algorithm (e2ee_transformer_ w) =
       (if decide (algorithm = AesCbc) then kAesCbc else kAesGcm) /\
     observer_ w = None /\
     tr_observer (e2ee_transformer_ w) = None /\
     key_index w = Done (default_key_index dflt) w').
Proof.
  assert (Halg : AlgorithmToFrameCryptorAlgorithm algorithm =
                 (if decide (algorithm = AesCbc) then kAesCbc else kAesGcm)).
  { unfold AlgorithmToFrameCryptorAlgorithm.
    destruct (Z.eqb_spec algorithm AesGcm) as [-> | _]; [reflexivity |].
    destruct (Z.eqb_spec algorithm AesCbc), (decide (algorithm = AesCbc));
      congruence. }
  destruct d; cbn [factory_of];
    unfold new_frame_cryptor_for_rtp_sender, new_frame_cryptor_for_rtp_receiver,
      FrameCryptor_sender, FrameCryptor_receiver;
    (destruct (track ep) as [trk |]; [right | left; split; reflexivity]);
    exists trk; eexists; eexists;
    (split; [reflexivity |]); (split; [reflexivity |]);
    (split; [reflexivity |]); (split; [reflexivity |]);
    (split; [reflexivity |]); (split; [reflexivity |]);
    (split; [reflexivity |]); (split; [reflexivity |]);
    (split; [exact Halg |]); (split; [reflexivity |]); (split; [reflexivity |]);
    rewrite key_index_quiescent by apply constructed_quiescent; reflexivity.
Qed.

(** ** One call from a well-formed world *)

Lemma register_observer_no_fuel (o : ObserverId) (w : World) (p : addr) :
  quiescent w -> observer_ w = Some p ->
  register_observer 0 o w = OutOfFuel.
Proof.
  unfold quiescent. intros Hq Hobs.
  unfold register_observer, MutexLock, bind, lock, make_unique, unique_ptr_reset, bind,
    gets, modify, delete_bridge, bind, emit, modify, NativeFrameCryptorObserver_dtor.
  rewrite Hq. cbn [observer_ log set_mutex set_observer_ set_heap next_addr]. rewrite Hobs.
  reflexivity.
Qed.

Lemma unregister_observer_low_fuel (w : World) (p : addr) :
  quiescent w -> observer_ w = Some p ->
  unregister_observer 1 w = OutOfFuel.
Proof.
  unfold quiescent. intros Hq Hobs.
  cbn [unregister_observer].
  unfold bind, emit, modify, MutexLock, bind, lock, unique_ptr_reset, bind, gets, modify,
    delete_bridge, bind, emit, modify.
  cbn [mutex_ log set_mutex]. rewrite Hq.
  cbn [observer_ log set_mutex set_observer_]. rewrite Hobs. reflexivity.
Qed.

(** With an observer registered, neither observer call returns, whatever
    the fuel. *)
Lemma observer_call_does_not_return (fuel : nat) (c : Call) (w w' : World) :
  quiescent w -> registered w = true -> is_observer_call c = true ->
  run_call fuel c w <> Done tt w'.
Proof.
  unfold registered. intros Hq Hreg Hc.
  destruct (observer_ w) as [p |] eqn:Hobs; [| discriminate].
  destruct c; try discriminate; cbn [run_call].
  - destruct fuel as [| n].
    + rewrite (register_observer_no_fuel o w p Hq Hobs). discriminate.
    + rewrite (register_observer_again n o w p Hq Hobs). discriminate.
  - destruct fuel as [| [| n]].
    + discriminate.
    + rewrite (unregister_observer_low_fuel w p Hq Hobs). discriminate.
    + rewrite (unregister_observer_registered n w p Hq Hobs). discriminate.
Qed.

Lemma bind_done {A B} (m : M A) (k : A -> M B) (w w' : World) (b : B) :
  bind m k w = Done b w' ->
  exists a w1, m w = Done a w1 /\ k a w1 = Done b w'.
Proof.
  unfold bind. destruct (m w) as [a w1 | | |]; try discriminate.
  intros H. exists a, w1. split; [reflexivity | exact H].
Qed.

Lemma well_formed_registered_false (w : World) :
  registered w = false -> observer_ w = None /\ current_observer w = None.
Proof.
  unfold registered, current_observer.
  destruct (observer_ w); [discriminate | split; reflexivity].
Qed.

Ltac follows_frame Hwf :=
  destruct Hwf as (Hq & Hc & Hh);
  unfold follows, well_formed, quiescent, consistent, registered, current_observer;
  cbn;
  repeat match goal with
         | |- _ /\ _ => split
         | |- forall _, _ => intros
         end;
  try reflexivity; try assumption; auto.

Lemma run_call_follows (fuel : nat) (c : Call) (w w' : World) :
  well_formed w ->
  run_call fuel c w = Done tt w' ->
  follows c w w'.
Proof.
  intros Hwf Hrun.
  assert (Hq0 : quiescent w) by apply Hwf.
  destruct c as [b | | k | | o | | st]; cbn [run_call] in Hrun.
  - rewrite set_enabled_quiescent in Hrun by exact Hq0.
    injection Hrun as <-. follows_frame Hwf.
    exists [EvLock; EvSetEnabled b; EvUnlock].
    rewrite <- !app_assoc. split; reflexivity.
  - unfold bind in Hrun. rewrite enabled_quiescent in Hrun by exact Hq0.
    injection Hrun as <-. follows_frame Hwf.
    exists [EvLock; EvUnlock]. rewrite <- !app_assoc. split; reflexivity.
  - rewrite set_key_index_quiescent in Hrun by exact Hq0.
    injection Hrun as <-. follows_frame Hwf.
    exists [EvLock; EvUnlock]. rewrite <- !app_assoc. split; reflexivity.
  - unfold bind in Hrun. rewrite key_index_quiescent in Hrun by exact Hq0.
    injection Hrun as <-. follows_frame Hwf.
    exists [EvLock; EvUnlock]. rewrite <- !app_assoc. split; reflexivity.
  - destruct (observer_ w) as [p |] eqn:Hobs.
    + exfalso.
      apply (observer_call_does_not_return fuel (CallRegisterObserver o) w w');
        [exact Hq0 | unfold registered; rewrite Hobs; reflexivity | reflexivity |].
      exact Hrun.
    + rewrite register_observer_first in Hrun by assumption.
      injection Hrun as <-.
      destruct Hwf as (Hq & Hc & Hh).
      unfold follows, well_formed, quiescent, consistent, registered, current_observer.
      cbn. rewrite !lookup_insert_eq, Hobs. cbn.
      repeat match goal with |- _ /\ _ => split end; try reflexivity.
      * intros p Hp. injection Hp as <-. rewrite lookup_insert_eq. eexists; reflexivity.
      * intros p Hp. discriminate Hp.
      * exists [EvLock; EvSetObserver (Some (next_addr w)); EvUnlock].
        rewrite <- !app_assoc. split; reflexivity.
  - destruct fuel as [| n]; [discriminate Hrun |].
    destruct (observer_ w) as [p |] eqn:Hobs.
    + exfalso.
      apply (observer_call_does_not_return (S n) CallUnregisterObserver w w');
        [exact Hq0 | unfold registered; rewrite Hobs; reflexivity | reflexivity |].
      exact Hrun.
    + rewrite unregister_observer_idle in Hrun by assumption.
      injection Hrun as <-.
      destruct Hwf as (Hq & Hc & Hh).
      unfold follows, well_formed, quiescent, consistent, registered, current_observer.
      cbn. rewrite Hobs.
      repeat match goal with |- _ /\ _ => split end; try reflexivity.
      * intros p Hp. discriminate Hp.
      * intros p Hp. discriminate Hp.
      * exists [EvUnregister; EvLock; EvSetObserver None; EvUnlock].
        rewrite <- !app_assoc. split; reflexivity.
  - destruct Hwf as (Hq & Hc & Hh). unfold consistent in Hc.
    unfold state_changed in Hrun. rewrite Hc in Hrun.
    unfold follows, well_formed, quiescent, consistent, registered, current_observer.
    destruct (observer_ w) as [p |] eqn:Hobs.
    + destruct (Hh p eq_refl) as [b Hb]. rewrite Hb in Hrun |- *.
      injection Hrun as <-. cbn. rewrite Hobs, Hb.
      repeat match goal with |- _ /\ _ => split end;
        try reflexivity; try assumption.
      * intros q Hq'. injection Hq' as <-. split; reflexivity.
      * eexists. split; reflexivity.
    + injection Hrun as <-. rewrite Hobs.
      repeat match goal with |- _ /\ _ => split end;
        try reflexivity; try assumption.
      * intros q Hq'. discriminate Hq'.
      * exists []. rewrite app_nil_r. split; reflexivity.
Qed.

(** ** Sequences of calls *)

Lemma enabled_after_cons (b0 : bool) (c : Call) (cs : list Call) :
  enabled_after b0 (c :: cs) = enabled_after (enabled_after b0 [c]) cs.
Proof. destruct c; reflexivity. Qed.

Lemma key_index_after_cons (k0 : Z) (c : Call) (cs : list Call) :
  key_index_after k0 (c :: cs) = key_index_after (key_index_after k0 [c]) cs.
Proof. destruct c; reflexivity. Qed.

Lemma callbacks_app (evs evs' : list Event) :
  callbacks (evs ++ evs') = callbacks evs ++ callbacks evs'.
Proof. unfold callbacks. apply List.filter_app. Qed.

Lemma expected_callbacks_cons (pid : string) (obs : option ObserverId)
    (c : Call) (cs : list Call) :
  (c = CallUnregisterObserver -> obs = None) ->
  expected_callbacks pid obs (c :: cs) =
    expected_callbacks pid obs [c] ++
    expected_callbacks pid
      (match c with CallRegisterObserver o => Some o | _ => obs end) cs.
Proof.
  intros Hun. destruct c; cbn; try reflexivity.
  - rewrite (Hun eq_refl). reflexivity.
  - destruct obs; reflexivity.
Qed.

Lemma avoids_reentry_cons (reg : bool) (c : Call) (cs : list Call) :
  avoids_reentry reg [c] = true ->
  avoids_reentry reg (c :: cs) =
    avoids_reentry (match c with CallRegisterObserver _ => true | _ => reg end) cs.
Proof. destruct c, reg; cbn; intros H; try reflexivity; discriminate H. Qed.

Lemma avoids_reentry_registered (c : Call) :
  avoids_reentry true [c] = true -> is_observer_call c = false.
Proof. destruct c; cbn; intros H; try reflexivity; discriminate H. Qed.

(** Everything a returning sequence of calls determines. *)
Lemma run_calls_follow (fuel : nat) (cs : list Call) :
  forall w w',
    well_formed w ->
    run_calls fuel cs w = Done tt w' ->
    well_formed w' /\
    tr_participant_id (e2ee_transformer_ w') = tr_participant_id (e2ee_transformer_ w) /\
    tr_enabled (e2ee_transformer_ w') =
      enabled_after (tr_enabled (e2ee_transformer_ w)) cs /\
    tr_key_index (e2ee_transformer_ w') =
      key_index_after (tr_key_index (e2ee_transformer_ w)) cs /\
    avoids_reentry (registered w) cs = true /\
    (forall p, observer_ w = Some p ->
       observer_ w' = Some p /\ heap w' !! p = heap w !! p /\
       Forall (fun c => is_observer_call c = false) cs) /\
    exists evs,
      trace w' = trace w ++ evs /\
      callbacks evs =
        expected_callbacks (tr_participant_id (e2ee_transformer_ w))
          (current_observer w) cs.
Proof.
  induction cs as [| c cs IH]; intros w w' Hwf Hrun.
  - injection Hrun as <-.
    repeat match goal with |- _ /\ _ => split end; try reflexivity; try exact Hwf.
    + intros p Hp. split; [exact Hp |]. split; [reflexivity | constructor].
    + exists []. rewrite app_nil_r. split; reflexivity.
  - cbn [run_calls] in Hrun.
    apply bind_done in Hrun as ([] & w1 & Hcall & Hrest).
    pose proof (run_call_follows fuel c w w1 Hwf Hcall)
      as (Hwf1 & Hpid1 & Hen1 & Hki1 & Hreg1 & Hcur1 & Hobs1 & Hav1 & evs1 & Htr1 & Hcb1).
    destruct (IH w1 w' Hwf1 Hrest)
      as (Hwf' & Hpid & Hen & Hki & Hav & Hobs & evs & Htr & Hcb).
    split; [exact Hwf' |].
    split; [congruence |].
    split; [rewrite Hen, Hen1; symmetry; apply enabled_after_cons |].
    split; [rewrite Hki, Hki1; symmetry; apply key_index_after_cons |].
    split; [rewrite (avoids_reentry_cons _ _ _ Hav1), <- Hreg1; exact Hav |].
    split.
    + intros p Hp. destruct (Hobs1 p Hp) as (Hp1 & Hheap1).
      destruct (Hobs p Hp1) as (Hp' & Hheap & Hall).
      split; [exact Hp' |]. split; [congruence |].
      constructor; [| exact Hall].
      apply avoids_reentry_registered.
      unfold registered in Hav1. rewrite Hp in Hav1. exact Hav1.
    + exists (evs1 ++ evs).
      split; [rewrite Htr, Htr1, app_assoc; reflexivity |].
      rewrite callbacks_app, Hcb1, Hcb, Hpid1, Hcur1.
      symmetry. apply expected_callbacks_cons.
      intros ->. cbn in Hav1.
      destruct (registered w) eqn:Hreg; [discriminate Hav1 |].
      apply well_formed_registered_false, Hreg.
Qed.

Lemma since_trace (w w' : World) (evs : list Event) :
  trace w' = trace w ++ evs -> callbacks (since w w') = callbacks evs.
Proof. intros H. rewrite (since_app w w' evs H). reflexivity. Qed.

Lemma sample_world_well_formed : well_formed sample_world.
Proof. apply constructed_well_formed. Qed.

Lemma sample_registered_well_formed : well_formed sample_registered.
Proof.
  split; [reflexivity |]. split; [reflexivity |].
  intros p Hp. rewrite sample_registered_slot in Hp. injection Hp as <-.
  exists {| br_observer := 7%nat |}. vm_compute. reflexivity.
Qed.

Lemma sample_after_mix_done :
  run_calls 2 call_mix sample_world = Done tt sample_after_mix.
Proof. vm_compute. reflexivity. Qed.

Lemma sample_registered_after_quiet_done :
  run_calls 2 quiet_calls sample_registered = Done tt sample_registered_after_quiet.
Proof. vm_compute. reflexivity. Qed.

(** X5: once an observer is registered, a sequence of calls that returns
    has left it in place: the owning slot and the transformer still point
    at the same bridge, the bridge is the same, and the sequence contains
    neither [register_observer] nor [unregister_observer]. *)
Theorem registered_observer_stays (fuel : nat) (cs : list Call) (w w' : World)
    (p : addr) :
  well_formed w ->
  observer_ w = Some p ->
  run_calls fuel cs w = Done tt w' ->
  observer_ w' = Some p /\
  tr_observer (e2ee_transformer_ w') = Some p /\
  heap w' !! p = heap w !! p /\
  Forall (fun c => is_observer_call c = false) cs.
Proof.
  intros Hwf Hp Hrun.
  destruct (run_calls_follow fuel cs w w' Hwf Hrun)
    as ((_ & Hc' & _) & _ & _ & _ & _ & Hobs & _).
  destruct (Hobs p Hp) as (Hp' & Hheap & Hall).
  split; [exact Hp' |]. split; [| split; assumption].
  unfold consistent in Hc'. rewrite Hc'. exact Hp'.
Qed.

Lemma registered_observer_stays_witness :
  observer_ sample_registered_after_quiet = Some 1%nat /\
  tr_observer (e2ee_transformer_ sample_registered_after_quiet) = Some 1%nat /\
  heap sample_registered_after_quiet !! 1%nat = heap sample_registered !! 1%nat /\
  Forall (fun c => is_observer_call c = false) quiet_calls.
Proof.
  exact (registered_observer_stays 2 quiet_calls sample_registered
           sample_registered_after_quiet 1%nat sample_registered_well_formed
           sample_registered_slot sample_registered_after_quiet_done).
Defined.

(** X6: the callbacks a returning sequence of calls delivers are exactly
    one per state change made while an observer is registered, in order,
    each to the observer registered at that moment, with the transformer's
    participant id and the state as reported; a state change with no
    observer registered delivers nothing. *)
Theorem callbacks_follow_registration (fuel : nat) (cs : list Call) (w w' : World) :
  well_formed w ->
  run_calls fuel cs w = Done tt w' ->
  callbacks (since w w') =
    expected_callbacks (tr_participant_id (e2ee_transformer_ w)) (current_observer w) cs.
Proof.
  intros Hwf Hrun.
  destruct (run_calls_follow fuel cs w w' Hwf Hrun)
    as (_ & _ & _ & _ & _ & _ & evs & Htr & Hcb).
  rewrite (since_trace w w' evs Htr). exact Hcb.
Qed.

Lemma callbacks_follow_registration_witness :
  callbacks (since sample_world sample_after_mix) =
    [EvCallback 7%nat "participant-1"%string 4; EvCallback 7%nat "participant-1"%string 5].
Proof.
  exact (callbacks_follow_registration 2 call_mix sample_world sample_after_mix
           sample_world_well_formed sample_after_mix_done).
Defined.

(** X7: after a returning sequence of calls of any kind, [enabled()]
    returns the argument of the latest [set_enabled] in the sequence (the
    flag before the sequence when there is none): key-index, observer and
    state-change calls do not touch the flag. *)
Theorem enabled_follows_latest_set_enabled (fuel : nat) (cs : list Call)
    (w w' : World) :
  well_formed w ->
  run_calls fuel cs w = Done tt w' ->
  exists w'',
    enabled w' = Done (enabled_after (tr_enabled (e2ee_transformer_ w)) cs) w''.
Proof.
  intros Hwf Hrun.
  destruct (run_calls_follow fuel cs w w' Hwf Hrun)
    as ((Hq' & _) & _ & Hen & _).
  rewrite enabled_quiescent by exact Hq'. rewrite Hen. eexists. reflexivity.
Qed.

Lemma enabled_follows_latest_set_enabled_witness :
  exists w'', enabled sample_after_mix = Done false w''.
Proof.
  exact (enabled_follows_latest_set_enabled 2 call_mix sample_world sample_after_mix
           sample_world_well_formed sample_after_mix_done).
Defined.

(** X8: after a returning sequence of calls of any kind, [key_index()]
    returns the argument of the latest [set_key_index] in the sequence
    (the index before the sequence when there is none): enable, observer
    and state-change calls do not touch the key index. *)
Theorem key_index_follows_latest_set_key_index (fuel : nat) (cs : list Call)
    (w w' : World) :
  well_formed w ->
  run_calls fuel cs w = Done tt w' ->
  exists w'',
    key_index w' = Done (key_index_after (tr_key_index (e2ee_transformer_ w)) cs) w''.
Proof.
  intros Hwf Hrun.
  destruct (run_calls_follow fuel cs w w' Hwf Hrun)
    as ((Hq' & _) & _ & _ & Hki & _).
  rewrite key_index_quiescent by exact Hq'. rewrite Hki. eexists. reflexivity.
Qed.

Lemma key_index_follows_latest_set_key_index_witness :
  exists w'', key_index sample_after_mix = Done (-5) w''.
Proof.
  exact (key_index_follows_latest_set_key_index 2 call_mix sample_world
           sample_after_mix sample_world_well_formed sample_after_mix_done).
Defined.

(** ** How a call can end *)

(** From a well-formed world no call goes through a dangling observer
    pointer, whatever the fuel. *)
Lemma run_call_no_use_after_free (fuel : nat) (c : Call) (w wx : World) :
  well_formed w -> run_call fuel c w <> UseAfterFree wx.
Proof.
  intros (Hq & Hc & Hh).
  destruct c as [b | | k | | o | | st]; cbn [run_call].
  - rewrite set_enabled_quiescent by exact Hq. discriminate.
  - unfold bind. rewrite enabled_quiescent by exact Hq. discriminate.
  - rewrite set_key_index_quiescent by exact Hq. discriminate.
  - unfold bind. rewrite key_index_quiescent by exact Hq. discriminate.
  - destruct (observer_ w) as [p |] eqn:Hobs.
    + destruct fuel as [| n].
      * rewrite (register_observer_no_fuel o w p Hq Hobs). discriminate.
      * rewrite (register_observer_again n o w p Hq Hobs). discriminate.
    + rewrite register_observer_first by assumption. discriminate.
  - destruct fuel as [| n]; [discriminate |].
    destruct (observer_ w) as [p |] eqn:Hobs.
    + destruct n as [| n].
      * rewrite (unregister_observer_low_fuel w p Hq Hobs). discriminate.
      * rewrite (unregister_observer_registered n w p Hq Hobs). discriminate.
    + rewrite unregister_observer_idle by assumption. discriminate.
  - unfold state_changed. unfold consistent in Hc. rewrite Hc.
    destruct (observer_ w) as [p |] eqn:Hobs; [| discriminate].
    destruct (Hh p eq_refl) as [b ->]. discriminate.
Qed.

(** With two units of fuel a call returns or blocks, and which of the two
    is decided by whether it is an observer call made with an observer
    registered. *)
Lemma run_call_returns_or_blocks (n : nat) (c : Call) (w : World) :
  well_formed w ->
  (exists w', run_call (S (S n)) c w = Done tt w' /\
              avoids_reentry (registered w) [c] = true) \/
  (exists wd, run_call (S (S n)) c w = Deadlock wd /\
              avoids_reentry (registered w) [c] = false).
Proof.
  intros (Hq & Hc & Hh). unfold registered.
  destruct c as [b | | k | | o | | st]; cbn [run_call].
  - left. rewrite set_enabled_quiescent by exact Hq.
    eexists. split; [reflexivity |]. destruct (observer_ w); reflexivity.
  - left. unfold bind. rewrite enabled_quiescent by exact Hq.
    eexists. split; [reflexivity |]. destruct (observer_ w); reflexivity.
  - left. rewrite set_key_index_quiescent by exact Hq.
    eexists. split; [reflexivity |]. destruct (observer_ w); reflexivity.
  - left. unfold bind. rewrite key_index_quiescent by exact Hq.
    eexists. split; [reflexivity |]. destruct (observer_ w); reflexivity.
  - destruct (observer_ w) as [p |] eqn:Hobs.
    + right. rewrite (register_observer_again (S n) o w p Hq Hobs).
      eexists. split; reflexivity.
    + left. rewrite register_observer_first by assumption.
      eexists. split; reflexivity.
  - destruct (observer_ w) as [p |] eqn:Hobs.
    + right. rewrite (unregister_observer_registered n w p Hq Hobs).
      eexists. split; reflexivity.
    + left. rewrite unregister_observer_idle by assumption.
      eexists. split; reflexivity.
  - left. unfold state_changed. unfold consistent in Hc. rewrite Hc.
    destruct (observer_ w) as [p |] eqn:Hobs.
    + destruct (Hh p eq_refl) as [b ->]. eexists. split; reflexivity.
    + eexists. split; reflexivity.
Qed.

Lemma avoids_reentry_cons_false (reg : bool) (c : Call) (cs : list Call) :
  avoids_reentry reg [c] = false -> avoids_reentry reg (c :: cs) = false.
Proof. destruct c, reg; cbn; intros H; try reflexivity; discriminate H. Qed.

Lemma run_calls_keep_well_formed (fuel : nat) (cs : list Call) :
  forall w, well_formed w ->
  match run_calls fuel cs w with
  | Done _ w' => well_formed w'
  | UseAfterFree _ => False
  | _ => True
  end.
Proof.
  induction cs as [| c cs IH]; intros w Hwf; [exact Hwf |].
  cbn [run_calls]. unfold bind.
  destruct (run_call fuel c w) as [[] w1 | wd | wx |] eqn:Hcall.
  - apply IH. apply (run_call_follows fuel c w w1 Hwf Hcall).
  - exact I.
  - exact (run_call_no_use_after_free fuel c w wx Hwf Hcall).
  - exact I.
Qed.

(** X4: a constructed FrameCryptor is well formed (mutex free, the
    transformer's observer pointer equal to the owning slot, a registered
    bridge alive), every sequence of calls that returns leaves it well
    formed, and no sequence of calls ever calls through a pointer to a
    freed bridge. *)
Theorem calls_keep_well_formed (d : Direction) (participant_id : string)
    (algorithm : TransformerAlgorithm) (key_provider : KeyProvider)
    (ep : RtpEndpoint) (t0 : addr) (dflt : TransformerDefaults)
    (trk : MediaStreamTrack) (fuel : nat) (cs : list Call) :
  track ep = Some trk ->
  exists w,
    constructor_of d participant_id algorithm key_provider ep t0 dflt = Built w /\
    well_formed w /\
    match run_calls fuel cs w with
    | Done _ w' => well_formed w'
    | UseAfterFree _ => False
    | _ => True
    end.
Proof.
  intros Htrk.
  destruct d; cbn [constructor_of];
    unfold FrameCryptor_sender, FrameCryptor_receiver; rewrite Htrk;
    eexists; (split; [reflexivity |]);
    (split; [apply constructed_well_formed |]);
    apply run_calls_keep_well_formed, constructed_well_formed.
Qed.

Lemma calls_keep_well_formed_witness :
  exists w,
    constructor_of Sender "participant-1"%string kAesGcm sample_key_provider
      audio_endpoint 0%nat sample_defaults = Built w /\
    well_formed w /\
    match run_calls 2 call_mix w with
    | Done _ w' => well_formed w'
    | UseAfterFree _ => False
    | _ => True
    end.
Proof.
  apply (calls_keep_well_formed Sender "participant-1"%string kAesGcm
           sample_key_provider audio_endpoint 0%nat sample_defaults
           {| kind := "audio"%string |} 2 call_mix).
  reflexivity.
Defined.

(** X11: with fuel for the one nested call, a sequence of calls from a
    well-formed world either returns or blocks on the mutex; it returns
    exactly when it never calls [register_observer] or
    [unregister_observer] while an observer is registered. *)
Theorem calls_return_unless_observer_call_reenters (n : nat) (cs : list Call)
    (w : World) :
  well_formed w ->
  match run_calls (S (S n)) cs w with
  | Done _ _ => avoids_reentry (registered w) cs = true
  | Deadlock _ => avoids_reentry (registered w) cs = false
  | _ => False
  end.
Proof.
  revert w. induction cs as [| c cs IH]; intros w Hwf; [reflexivity |].
  cbn [run_calls]. unfold bind.
  destruct (run_call_returns_or_blocks n c w Hwf)
    as [(w1 & Hcall & Hav) | (wd & Hcall & Hav)]; rewrite Hcall.
  - pose proof (run_call_follows (S (S n)) c w w1 Hwf Hcall)
      as (Hwf1 & _ & _ & _ & Hreg1 & _).
    specialize (IH w1 Hwf1).
    rewrite (avoids_reentry_cons _ _ _ Hav), <- Hreg1. exact IH.
  - apply avoids_reentry_cons_false, Hav.
Qed.

Lemma calls_return_unless_observer_call_reenters_witness :
  match run_calls 2 (call_mix ++ [CallUnregisterObserver; CallSetEnabled true])
          sample_world with
  | Done _ _ =>
      avoids_reentry (registered sample_world)
        (call_mix ++ [CallUnregisterObserver; CallSetEnabled true]) = true
  | Deadlock _ =>
      avoids_reentry (registered sample_world)
        (call_mix ++ [CallUnregisterObserver; CallSetEnabled true]) = false
  | _ => False
  end.
Proof.
  exact (calls_return_unless_observer_call_reenters 0
           (call_mix ++ [CallUnregisterObserver; CallSetEnabled true]) sample_world
           sample_world_well_formed).
Defined.

(** ** The attachment over the whole life of a FrameCryptor *)

(** X9: whatever calls are made on a constructed FrameCryptor and however
    they and the destructor end, the endpoint keeps its track and its
    transformer slot keeps pointing at the transformer the constructor
    attached: nothing in this layer detaches or re-attaches it. *)
Theorem endpoint_is_never_changed (d : Direction) (participant_id : string)
    (algorithm : TransformerAlgorithm) (key_provider : KeyProvider)
    (ep : RtpEndpoint) (t0 : addr) (dflt : TransformerDefaults)
    (trk : MediaStreamTrack) :
  track ep = Some trk ->
  exists w,
    constructor_of d participant_id algorithm key_provider ep t0 dflt = Built w /\
    forall (fuel : nat) (cs : list Call) (pol : UniquePtrDtor),
      match world_of ((run_calls fuel cs ;; FrameCryptor_dtor pol fuel) w) with
      | Some w' =>
          track (endpoint w') = Some trk /\
          frame_transformer (endpoint w') = Some t0 /\
          transformer_at w' = t0
      | None => True
      end.
Proof.
  intros Htrk.
  assert (Hkeep : forall fuel cs pol,
             keeps (run_calls fuel cs ;; FrameCryptor_dtor pol fuel)).
  { intros fuel cs pol. apply keeps_bind; [apply keeps_run_calls | intros _].
    apply keeps_FrameCryptor_dtor. }
  destruct d; cbn [constructor_of];
    unfold FrameCryptor_sender, FrameCryptor_receiver; rewrite Htrk;
    eexists; (split; [reflexivity |]);
    intros fuel cs pol;
    match goal with
    | |- match world_of (?m ?w0) with _ => _ end =>
        pose proof (Hkeep fuel cs pol w0) as Hk;
        destruct (world_of (m w0)) as [w' |]; [| exact I]
    end;
    destruct Hk as (Hep & Hat & _); rewrite Hep, Hat; cbn;
    repeat split; exact Htrk.
Qed.

Lemma endpoint_is_never_changed_witness :
  exists w,
    constructor_of Receiver "participant-1"%string kAesCbc sample_key_provider
      audio_endpoint 5%nat sample_defaults = Built w /\
    forall (fuel : nat) (cs : list Call) (pol : UniquePtrDtor),
      match world_of ((run_calls fuel cs ;; FrameCryptor_dtor pol fuel) w) with
      | Some w' =>
          track (endpoint w') = Some {| kind := "audio"%string |} /\
          frame_transformer (endpoint w') = Some 5%nat /\
          transformer_at w' = 5%nat
      | None => True
      end.
Proof.
  apply (endpoint_is_never_changed Receiver "participant-1"%string kAesCbc
           sample_key_provider audio_endpoint 5%nat sample_defaults
           {| kind := "audio"%string |}).
  reflexivity.
Defined.

(** ** Destruction when the pointer stays stored *)

(** X10: where [~unique_ptr] deletes with the pointer still stored,
    destroying a FrameCryptor that has an observer registered does not
    return: the bridge's destructor takes the mutex and clears
    [observer_], which deletes the same bridge a second time, and the
    second destructor run blocks on the held mutex.  The bridge is never
    freed and the transformer keeps its observer pointer. *)
Theorem delete_then_clear_destroys_bridge_twice (n : nat) (w : World) (p : addr) :
  quiescent w ->
  observer_ w = Some p ->
  exists wd,
    FrameCryptor_dtor DeleteThenClear (S (S n)) w = Deadlock wd /\
    since w wd =
      [EvDestroyBridge p; EvUnregister; EvLock; EvDestroyBridge p; EvUnregister] /\
    mutex_ wd = true /\
    heap wd = heap w /\
    tr_observer (e2ee_transformer_ wd) = tr_observer (e2ee_transformer_ w) /\
    destroyed wd = destroyed w.
Proof.
  intros Hq Hobs.
  rewrite (dtor_delete_then_clear_registered n w p Hq Hobs).
  eexists. split; [reflexivity |].
  split; [added_events |]. repeat split.
Qed.

Lemma delete_then_clear_destroys_bridge_twice_witness :
  exists wd,
    FrameCryptor_dtor DeleteThenClear 2 sample_registered = Deadlock wd /\
    since sample_registered wd =
      [EvDestroyBridge 1%nat; EvUnregister; EvLock; EvDestroyBridge 1%nat;
       EvUnregister] /\
    mutex_ wd = true /\
    heap wd = heap sample_registered /\
    tr_observer (e2ee_transformer_ wd) = Some 1%nat /\
    destroyed wd = false.
Proof.
  apply (delete_then_clear_destroys_bridge_twice 0 sample_registered 1%nat);
    reflexivity.
Defined.
